(** * The credit-card pay button of the partner portal

    A shallow embedding of
    [client/jetpack-cloud/sections/partner-portal/credit-card-fields/credit-card-pay-button.js]:
    the form validator [isCreditCardFormValid], the label function
    [ButtonContents] and the component [CreditCardPayButton] with its click
    handler.

    The store object the validator receives, the checkout hooks and the two
    callbacks are collaborators of the file; they appear here as an interface
    ([Store]), a rendering context ([Hooks]) and recorded effects ([Effect]). *)

From Stdlib Require Import ZArith Ascii String.
From stdpp Require Import base strings list gmap pretty.

Open Scope string_scope.
Open Scope list_scope.
Open Scope stdpp_scope.

(** ** JavaScript values *)

(** The values the button handles dynamically: the optional
    [activeButtonText], the entries of the card-data error object and the
    result of an optional chain.  Numbers are integers or [NaN]; fractions
    play no part in the file. *)
Inductive JsVal : Type :=
  | JUndefined
  | JNull
  | JBool (b : bool)
  | JNum (z : Z)
  | JNaN
  | JStr (s : string).

#[global] Instance JsVal_eq_dec : EqDecision JsVal.
Proof. solve_decision. Defined.

(** ToBoolean. *)
Definition truthy (v : JsVal) : bool :=
  match v with
  | JUndefined | JNull | JNaN => false
  | JBool b => b
  | JNum z => negb (z =? 0)%Z
  | JStr s => negb (String.eqb s "")
  end.

(** [! v] *)
Definition js_not (v : JsVal) : bool := negb (truthy v).

(** [a || b]: the left operand itself when it is truthy. *)
Definition js_or (a b : JsVal) : JsVal := if truthy a then a else b.

(** [s.length], as a JavaScript number.  The count is of bytes here and of
    UTF-16 units there; the two agree on whether the string is empty, which
    is all the file asks of it. *)
Definition js_length (s : string) : JsVal := JNum (Z.of_nat (String.length s)).

(** Errors a call can end with. *)
Inductive JsError : Type :=
  | RangeError (message : string)
  | Error (message : string).

Definition dquote : string := String (Ascii.ascii_of_nat 34) EmptyString.

(** ** Data model *)

(** A record of the field store. *)
Record Field : Type := mkField {
  value : string;
  isValid : bool;
  errorMessage : option string
}.

(** [fields]: an object keyed by field name. *)
Abbreviation Fields := (gmap string Field).

(** The card-data error object: field name to a message or a falsy value. *)
Abbreviation CardDataErrors := (gmap string JsVal).

(** The action objects built by [store.actions]. *)
Inductive Action : Type :=
  | setFieldValue (key : string) (val : string)
  | setCardDataError (key : string) (message : string).

#[global] Instance Action_eq_dec : EqDecision Action.
Proof. solve_decision. Defined.

(** The statuses of [@automattic/composite-checkout]. *)
Inductive FormStatus : Type := LOADING | READY | SUBMITTING | VALIDATING | COMPLETE.

#[global] Instance FormStatus_eq_dec : EqDecision FormStatus.
Proof. solve_decision. Defined.

Record Amount : Type := mkAmount {
  currency : string;
  amountValue : Z;
  displayValue : string
}.

Record LineItem : Type := mkLineItem {
  id : string;
  itemType : string;
  label : string;
  amount : Amount
}.

(** The object handed to [onEvent]. *)
Record Event : Type := mkEvent { type : string }.

(** ** The store interface *)

(** What the validator uses of its [store] argument: the three selectors
    and, for [dispatch], the transition an action causes.  [getState] is the
    state threaded by the monad below. *)
Record Store (State : Type) : Type := mkStore {
  getFields : State -> Fields;
  getCardDataErrors : State -> CardDataErrors;
  getIncompleteFieldKeys : State -> list string;
  reducer : State -> Action -> State
}.
Arguments getFields {State} _ _.
Arguments getCardDataErrors {State} _ _.
Arguments getIncompleteFieldKeys {State} _ _.
Arguments reducer {State} _ _ _.

(** [fields.cardholderName]: no record when the object has no such entry. *)
Definition cardholderName (fields : Fields) : option Field :=
  fields !! "cardholderName".

(** [cardholderName?.value]: [undefined] when [cardholderName] is. *)
Definition cardholderName_value (fields : Fields) : JsVal :=
  match cardholderName fields with
  | Some f => JStr (value f)
  | None => JUndefined
  end.

(** [cardholderName?.value.length]: the whole chain is [undefined] when
    [cardholderName] is. *)
Definition cardholderName_value_length (fields : Fields) : JsVal :=
  match cardholderName fields with
  | Some f => js_length (value f)
  | None => JUndefined
  end.

(** [errors[ errorKey ]] *)
Definition js_get (errors : CardDataErrors) (key : string) : JsVal :=
  default JUndefined (errors !! key).

(** [Object.keys( errors )] *)
Definition Object_keys (errors : CardDataErrors) : list string :=
  (map_to_list errors).*1.

(** [Object.keys( errors ).some( ( errorKey ) => errors[ errorKey ] )] *)
Definition areThereErrors (errors : CardDataErrors) : bool :=
  existsb (fun errorKey => truthy (js_get errors errorKey)) (Object_keys errors).

(** ** Effects *)

(** The argument of the submission callback. *)
Record Payload (Stripe StripeConfiguration : Type) : Type := mkPayload {
  stripe : Stripe;
  name : JsVal;
  items : list LineItem;
  total : LineItem;
  stripeConfiguration : StripeConfiguration;
  paymentPartner : string
}.
Arguments mkPayload {Stripe StripeConfiguration} _ _ _ _ _ _.
Arguments stripe {Stripe StripeConfiguration} _.
Arguments name {Stripe StripeConfiguration} _.
Arguments items {Stripe StripeConfiguration} _.
Arguments total {Stripe StripeConfiguration} _.
Arguments stripeConfiguration {Stripe StripeConfiguration} _.
Arguments paymentPartner {Stripe StripeConfiguration} _.

(** The calls that leave the file, in the order they are made. *)
Inductive Effect (P : Type) : Type :=
  | Dispatch (a : Action)
  | OnEvent (e : Event)
  | OnClick (method : string) (payload : P).
Arguments Dispatch {P} _.
Arguments OnEvent {P} _.
Arguments OnClick {P} _ _.

Inductive Outcome (A : Type) : Type :=
  | Ret (a : A)
  | Throw (e : JsError).
Arguments Ret {A} _.
Arguments Throw {A} _.

(** A computation reads and replaces the store's state, records its calls
    and returns or throws. *)
Definition M (State P A : Type) : Type :=
  State -> Outcome A * State * list (Effect P).

Section Monad.
Context {State P : Type}.

Definition ret {A} (a : A) : M State P A := fun s => (Ret a, s, []).

Definition throw {A} (e : JsError) : M State P A := fun s => (Throw e, s, []).

Definition bind {A B} (m : M State P A) (k : A -> M State P B) : M State P B :=
  fun s =>
    match m s with
    | (Ret a, s1, t1) =>
        match k a s1 with
        | (r, s2, t2) => (r, s2, t1 ++ t2)
        end
    | (Throw e, s1, t1) => (Throw e, s1, t1)
    end.

(** [selector( store.getState() )] *)
Definition select {A} (selector : State -> A) : M State P A :=
  fun s => (Ret (selector s), s, []).

(** [store.dispatch( action )] *)
Definition dispatch (store : Store State) (action : Action) : M State P unit :=
  fun s => (Ret tt, reducer store s action, [Dispatch action]).

Definition onEvent (e : Event) : M State P unit :=
  fun s => (Ret tt, s, [OnEvent e]).

Definition onClick (method : string) (payload : P) : M State P unit :=
  fun s => (Ret tt, s, [OnClick method payload]).
End Monad.

Declare Scope js_scope.
Delimit Scope js_scope with js.
Notation "x <- m ;; k" := (bind m (fun x => k))
  (at level 100, m at next level, right associativity) : js_scope.
Notation "m ;;; k" := (bind m (fun _ => k))
  (at level 100, right associativity) : js_scope.
Open Scope js_scope.

Section Validator.
Context {State P : Type}.

(** [array.map( callback )], the callbacks run in index order. *)
Fixpoint Array_map {A B} (callback : A -> M State P B) (array : list A)
  : M State P (list B) :=
  match array with
  | [] => ret []
  | x :: rest =>
      y <- callback x ;;
      ys <- Array_map callback rest ;;
      ret (y :: ys)
  end.

(** [isCreditCardFormValid( store, paymentPartner, __ )].  The [switch] has
    the one case [stripe] and a [default] that throws; the two selectors are
    read after the touch, the verdict uses the [cardholderName] read before
    it.  The [debug] lines have no part in the result and are left out. *)
Definition isCreditCardFormValid (store : Store State) (paymentPartner : string)
    (__ : string -> string) : M State P bool :=
  if String.eqb paymentPartner "stripe" then
    fields <- select (getFields store) ;;
    let cardholderName_length := cardholderName_value_length fields in
    (if js_not cardholderName_length
     then dispatch store (setFieldValue "cardholderName" "")
     else ret tt) ;;;
    errors <- select (getCardDataErrors store) ;;
    incompleteFieldKeys <- select (getIncompleteFieldKeys store) ;;
    let areThereErrors := areThereErrors errors in
    (if (0 <? length incompleteFieldKeys)%nat
     then
       Array_map
         (fun key => dispatch store (setCardDataError key (__ "This field is required")))
         incompleteFieldKeys ;;;
       ret tt
     else ret tt) ;;;
    if areThereErrors || js_not cardholderName_length || (0 <? length incompleteFieldKeys)%nat
    then ret false
    else ret true
  else
    throw (RangeError ("Unexpected payment partner " +:+ dquote +:+ paymentPartner +:+ dquote)).
End Validator.

(** ** The button *)

(** [sprintf] of [@wordpress/i18n], for the directives this file's format
    strings use: [%s] takes the next argument ([undefined] prints as such
    when none is left), [%%] is a percent sign, any other character is
    copied. *)
Fixpoint sprintf (format : string) (args : list string) : string :=
  match format with
  | EmptyString => EmptyString
  | String "%"%char (String "s"%char rest) =>
      match args with
      | arg :: args' => arg +:+ sprintf rest args'
      | [] => "undefined" +:+ sprintf rest []
      end
  | String "%"%char (String "%"%char rest) => String "%"%char (sprintf rest args)
  | String c rest => String c (sprintf rest args)
  end.

(** [ButtonContents( { formStatus, total, activeButtonText } )], with the
    [__] of [useI18n]. *)
Definition ButtonContents (__ : string -> string) (formStatus : FormStatus)
    (total : LineItem) (activeButtonText : JsVal) : JsVal :=
  if decide (formStatus = SUBMITTING) then JStr (__ "Processing…")
  else if decide (formStatus = READY) then
    js_or activeButtonText (JStr (sprintf (__ "Pay %s") [displayValue (amount total)]))
  else JStr (__ "Please wait…").

(** What the hooks hand to one rendering: [useI18n], [useLineItems] and
    [useFormStatus].  [useSelect] reads the store's state at rendering and
    [useEvents] gives the [onEvent] callback. *)
Record Hooks : Type := mkHooks {
  useI18n : string -> string;
  useLineItems : list LineItem * LineItem;
  useFormStatus : FormStatus
}.

(** The [Button] element the component returns. *)
Module Button.
Record props (State P : Type) : Type := mk {
  primary : bool;
  disabled : bool;
  onClick : M State P unit;
  busy : bool;
  children : JsVal
}.
Arguments mk {State P} _ _ _ _ _.
Arguments primary {State P} _.
Arguments disabled {State P} _.
Arguments onClick {State P} _.
Arguments busy {State P} _.
Arguments children {State P} _.
End Button.

Section Component.
Context {State Stripe StripeConfiguration : Type}.

(** [CreditCardPayButton( { disabled, onClick, store, stripe,
    stripeConfiguration, activeButtonText } )], rendered while the store is in
    the state [rendered]: [useSelect] reads the fields of the same
    credit-card store the [store] property stands for.  The [onClick] and
    [onEvent] callbacks are the effects of those names. *)
Definition CreditCardPayButton (hooks : Hooks) (disabled : bool)
    (store : Store State) (stripe : Stripe)
    (stripeConfiguration : StripeConfiguration) (activeButtonText : JsVal)
    (rendered : State)
  : Button.props State (Payload Stripe StripeConfiguration) :=
  let __ := useI18n hooks in
  let '(items, total) := useLineItems hooks in
  let fields := getFields store rendered in
  let formStatus := useFormStatus hooks in
  let paymentPartner := "stripe" in
  Button.mk
    true
    disabled
    (valid <- isCreditCardFormValid store paymentPartner __ ;;
     if valid : bool then
       if String.eqb paymentPartner "stripe" then
         onEvent (mkEvent "STRIPE_TRANSACTION_BEGIN") ;;;
         onClick "card"
           (mkPayload stripe (cardholderName_value fields) items total
              stripeConfiguration paymentPartner) ;;;
         ret tt
       else
         throw (Error ("Unrecognized payment partner in submit handler: "
                       +:+ dquote +:+ paymentPartner +:+ dquote))
     else ret tt)
    (bool_decide (SUBMITTING = formStatus))
    (ButtonContents __ formStatus total activeButtonText).
End Component.

(** ** A store to run the button on *)

(** Modelled from the spec: the credit-card store, whose module is not among
    the sources at hand.  Its state holds what the three selectors of the
    interface return; setting a field's value writes that field's record
    (a fresh record for a field not yet present) and setting a card-data
    error writes the message under the key.  Each action leaves the other
    parts of the state alone. *)
Record CardState : Type := mkCardState {
  fields : Fields;
  cardDataErrors : CardDataErrors;
  incompleteFieldKeys : list string
}.

Definition cardReducer (s : CardState) (action : Action) : CardState :=
  match action with
  | setFieldValue key val =>
      let record :=
        match fields s !! key with
        | Some f => mkField val (isValid f) (errorMessage f)
        | None => mkField val false None
        end in
      mkCardState (<[key := record]> (fields s)) (cardDataErrors s) (incompleteFieldKeys s)
  | setCardDataError key message =>
      mkCardState (fields s) (<[key := JStr message]> (cardDataErrors s)) (incompleteFieldKeys s)
  end.

Definition cardStore : Store CardState :=
  mkStore CardState fields cardDataErrors incompleteFieldKeys cardReducer.

(** ** Reading a trace *)

Section TraceReaders.
Context {P : Type}.

(** The actions dispatched to the store, in order. *)
Definition dispatched (t : list (Effect P)) : list Action :=
  omap (fun e => match e with Dispatch a => Some a | _ => None end) t.

(** The events handed to [onEvent]. *)
Definition emitted (t : list (Effect P)) : list Event :=
  omap (fun e => match e with OnEvent ev => Some ev | _ => None end) t.

(** The calls of the submission callback. *)
Definition submitted (t : list (Effect P)) : list (string * P) :=
  omap (fun e => match e with OnClick m p => Some (m, p) | _ => None end) t.
End TraceReaders.

(** The [set field value] writes among some actions, as key and value. *)
Definition fieldValueWrites (acts : list Action) : list (string * string) :=
  omap (fun a => match a with setFieldValue k v => Some (k, v) | _ => None end) acts.

(** The [set card data error] writes among some actions, as key and message. *)
Definition cardDataErrorWrites (acts : list Action) : list (string * string) :=
  omap (fun a => match a with setCardDataError k m => Some (k, m) | _ => None end) acts.

(** The number of error writes for one key among some actions. *)
Definition errorWritesFor (key : string) (acts : list Action) : nat :=
  count_occ String.string_dec (cardDataErrorWrites acts).*1 key.

(** ** The steps of one call of the validator *)

Section ValidatorSteps.
Context {State : Type} (store : Store State) (__ : string -> string).

(** The action that touches the cardholder name. *)
Definition touch : Action := setFieldValue "cardholderName" "".

(** The guard of the touch: [! cardholderName?.value.length]. *)
Definition nameMissing (s : State) : bool :=
  js_not (cardholderName_value_length (getFields store s)).

(** The state the error object and the incomplete keys are read from. *)
Definition afterTouch (s : State) : State :=
  if nameMissing s then reducer store s touch else s.

(** The touch, when the guard holds. *)
Definition touchWrites (s : State) : list Action :=
  if nameMissing s then [touch] else [].

(** One error write per key. *)
Definition requiredErrors (keys : list string) : list Action :=
  (fun key => setCardDataError key (__ "This field is required")) <$> keys.

(** The reducer keeps the parts of the state apart: a field's value written
    changes that field only, an error written changes that error key only. *)
Record SeparateSlices : Prop := {
  field_value_other_fields : forall s key val other,
    other <> key ->
    getFields store (reducer store s (setFieldValue key val)) !! other
    = getFields store s !! other;
  field_value_errors : forall s key val,
    getCardDataErrors store (reducer store s (setFieldValue key val))
    = getCardDataErrors store s;
  field_value_incomplete : forall s key val,
    getIncompleteFieldKeys store (reducer store s (setFieldValue key val))
    = getIncompleteFieldKeys store s;
  card_error_fields : forall s key message,
    getFields store (reducer store s (setCardDataError key message))
    = getFields store s;
  card_error_other_errors : forall s key message other,
    other <> key ->
    getCardDataErrors store (reducer store s (setCardDataError key message)) !! other
    = getCardDataErrors store s !! other
}.
End ValidatorSteps.
Arguments field_value_other_fields {State store} _.
Arguments field_value_errors {State store} _.
Arguments field_value_incomplete {State store} _.
Arguments card_error_fields {State store} _.
Arguments card_error_other_errors {State store} _.

(** ** The conditions the specification names *)

Section Conditions.
Context {State : Type} (store : Store State).

(** Some value of the card-data error object is truthy. *)
Definition hasTruthyError (s : State) : Prop :=
  exists key v, getCardDataErrors store s !! key = Some v /\ truthy v = true.

(** The cardholder-name field holds the empty value. *)
Definition nameValueEmpty (s : State) : Prop :=
  exists f, getFields store s !! "cardholderName" = Some f /\ value f = "".

(** The fields object has no cardholder-name entry. *)
Definition nameAbsent (s : State) : Prop :=
  getFields store s !! "cardholderName" = None.

(** The list of incomplete field keys is not empty. *)
Definition hasIncompleteKeys (s : State) : Prop :=
  getIncompleteFieldKeys store s <> [].
End Conditions.

(** White space among the ASCII characters: the blank and the controls from
    tab to carriage return. *)
Definition isWhiteSpace (c : ascii) : bool :=
  let n := nat_of_ascii c in
  (n =? 32)%nat || ((9 <=? n)%nat && (n <=? 13)%nat).

Fixpoint trimStart (s : string) : string :=
  match s with
  | EmptyString => EmptyString
  | String c rest => if isWhiteSpace c then trimStart rest else s
  end.

Fixpoint trimEnd (s : string) : string :=
  match s with
  | EmptyString => EmptyString
  | String c rest =>
      match trimEnd rest with
      | EmptyString => if isWhiteSpace c then EmptyString else String c EmptyString
      | kept => String c kept
      end
  end.

(** Following the spec's words: the trimmed form of a value, white space
    taken off both ends ([String.prototype.trim]).  The validator itself
    never calls it. *)
Definition trim (s : string) : string := trimEnd (trimStart s).

(** ** Stores to try the button on *)

(** The [__] of a locale without translations: every text stands for itself. *)
Definition noTranslation (text : string) : string := text.

(** The store as it starts: no field entered, no error, nothing incomplete. *)
Definition emptyForm : CardState := mkCardState ∅ ∅ [].

(** A name entered, no error, every card field complete. *)
Definition filledForm : CardState :=
  mkCardState {[ "cardholderName" := mkField "Ada Lovelace" true None ]} ∅ [].

(** A name of one blank. *)
Definition blankNameForm : CardState :=
  mkCardState {[ "cardholderName" := mkField " " true None ]} ∅ [].

(** The name field visited and left empty. *)
Definition emptyNameForm : CardState :=
  mkCardState {[ "cardholderName" := mkField "" false None ]} ∅ [].

(** A name entered, the card number refused, two card fields not filled in. *)
Definition incompleteForm : CardState :=
  mkCardState {[ "cardholderName" := mkField "Ada Lovelace" true None ]}
    {[ "cardNumber" := JStr "Your card number is invalid." ]}
    ["cardCvc"; "cardExpiry"].

(** A rendering with the status [READY] and a total displayed as [$9.99]. *)
Definition readyHooks : Hooks :=
  mkHooks noTranslation
    ([mkLineItem "plan" "plan" "Jetpack Backup" (mkAmount "USD" 999 "$9.99")],
     mkLineItem "total" "total" "Total" (mkAmount "USD" 999 "$9.99"))
    READY.

(** ** More of JavaScript and React *)

(** [a && b]: the left operand itself when it is falsy. *)
Definition js_and (a b : JsVal) : JsVal := if truthy a then b else a.

(** [a === b] on the values at hand; [NaN] equals nothing. *)
Definition js_strict_eq (a b : JsVal) : bool :=
  match a, b with
  | JNaN, _ | _, JNaN => false
  | _, _ => bool_decide (a = b)
  end.

(** ToString, as a template literal applies it.  An integer prints in
    decimal digits, which is what JavaScript prints below 10^21. *)
Definition js_toString (v : JsVal) : string :=
  match v with
  | JUndefined => "undefined"
  | JNull => "null"
  | JBool true => "true"
  | JBool false => "false"
  | JNum z => pretty z
  | JNaN => "NaN"
  | JStr s => s
  end.

(** What React does with a child that is a plain value: booleans, [null]
    and [undefined] leave no trace in the page, numbers and strings are put
    there as text. *)
Definition reactIgnores (child : JsVal) : bool :=
  match child with
  | JUndefined | JNull | JBool _ => true
  | JNum _ | JNaN | JStr _ => false
  end.

(** ** The payment-method page (the second part of the pay-button source) *)

Module PaymentMethodAdd.

(** The options object of a notice. *)
Record NoticeOptions : Type := mkOptions {
  displayOnNextPage : option bool;
  duration : option Z
}.

(** The actions of [calypso/state/notices/actions], by creator. *)
Inductive NoticeAction : Type :=
  | successNotice (text : JsVal) (options : option NoticeOptions)
  | errorNotice (text : JsVal) (options : option NoticeOptions)
  | infoNotice (text : JsVal) (options : option NoticeOptions).



(** The calls that leave the page component. *)
Inductive Call : Type :=
  | reduxDispatch (action : NoticeAction)
  | page (path : string).

(** A payment method as the page reads it. *)
Record PaymentMethod (Content : Type) : Type := mkMethod {
  id : string;
  activeContent : option Content
}.
Arguments mkMethod {Content} _ _.
Arguments id {Content} _.
Arguments activeContent {Content} _.

(** The result of [useStripe], as far as the page reads it itself. *)
Record UseStripe : Type := mkUseStripe {
  isStripeLoading : bool;
  stripeLoadingError : option string
}.

(** The check box under the card form. *)
Record Checkbox : Type := mkCheckbox {
  checked : bool;
  ariaLabel : string;
  afterChange : bool
}.

(** What the page hands to [assignNewCardProcessor] beside the data. *)
Record ProcessorOptions (Purchase : Type) : Type := mkProcessorOptions {
  processorPurchase : option Purchase;
  processorUseAsPrimaryPaymentMethod : bool
}.
Arguments mkProcessorOptions {Purchase} _ _.
Arguments processorPurchase {Purchase} _.
Arguments processorUseAsPrimaryPaymentMethod {Purchase} _.

(** The parts of the rendered page that depend on its data. *)
Record view (Purchase Content : Type) : Type := mkView {
  title : string;
  onPaymentComplete : list Call;
  paymentMethods : list (PaymentMethod Content);
  isLoading : bool;
  initiallySelectedPaymentMethodId : string;
  cardProcessor : ProcessorOptions Purchase;
  loadingShown : bool;
  noticeShown : option Purchase;
  contentShown : option Content;
  checkbox : option Checkbox;
  backDisabled : bool;
  afterRender : list Call
}.
Arguments mkView {Purchase Content} _ _ _ _ _ _ _ _ _ _ _ _.
Arguments title {Purchase Content} _.
Arguments onPaymentComplete {Purchase Content} _.
Arguments paymentMethods {Purchase Content} _.
Arguments isLoading {Purchase Content} _.
Arguments initiallySelectedPaymentMethodId {Purchase Content} _.
Arguments cardProcessor {Purchase Content} _.
Arguments loadingShown {Purchase Content} _.
Arguments noticeShown {Purchase Content} _.
Arguments contentShown {Purchase Content} _.
Arguments checkbox {Purchase Content} _.
Arguments backDisabled {Purchase Content} _.
Arguments afterRender {Purchase Content} _.

Section Page.
Context {Purchase Content : Type}.

(** [onPaymentSelectComplete( { successCallback, translate,
    showSuccessMessage, purchase } )]; a callback is the calls it makes. *)
Definition onPaymentSelectComplete {C : Type} (successCallback : list C)
    (translate : string -> string) (showSuccessMessage : JsVal -> list C)
    (purchase : option Purchase) : list C :=
  match purchase with
  | Some _ => showSuccessMessage (JStr (translate "Your payment method has been set."))
  | None => showSuccessMessage (JStr (translate "Your payment method has been added successfully."))
  end
  ++ successCallback.

(** The message callbacks of [PaymentMethodAdd]. *)
Definition showSuccessMessage (message : JsVal) : list Call :=
  [reduxDispatch (successNotice message (Some (mkOptions (Some true) (Some 5000%Z))))].


Definition showInfoMessage (message : JsVal) : list Call :=
  [reduxDispatch (infoNotice message None)].

(** The first state of [useAsPrimaryPaymentMethod]: [! purchase]. *)
Definition initialUseAsPrimaryPaymentMethod (purchase : option Purchase) : bool :=
  match purchase with Some _ => false | None => true end.

(** [[ stripeMethod ].filter( Boolean )] *)
Definition filter_Boolean {A} (array : list (option A)) : list A :=
  omap (fun entry => entry) array.

(** [PaymentMethodAdd()], for what its hooks return: [useStripe], the method
    of [useCreateStoredCreditCard] (absent while it is not ready), the value
    [getPaymentMethodIdFromPayment] gives for no payment, the current state
    of [useAsPrimaryPaymentMethod] and [translate]. *)
Definition PaymentMethodAdd (useStripe : UseStripe)
    (stripeMethod : option (PaymentMethod Content))
    (currentlyAssignedPaymentMethodId : JsVal)
    (useAsPrimaryPaymentMethod : bool)
    (translate : string -> string) : view Purchase Content :=
  let purchase : option Purchase := None in
  let paymentMethods := filter_Boolean [stripeMethod] in
  let currentPaymentMethodNotAvailable :=
    negb (existsb
            (fun paymentMethod =>
               js_strict_eq (JStr (id paymentMethod)) currentlyAssignedPaymentMethodId)
            paymentMethods) in
  let assignAllSubscriptionsText := translate "Set as primary payment method" in
  mkView
    (translate "Payment Method")
    (onPaymentSelectComplete [page "/partner-portal/payment-method/"] translate
       showSuccessMessage purchase)
    paymentMethods
    (isStripeLoading useStripe)
    "card"
    (mkProcessorOptions purchase useAsPrimaryPaymentMethod)
    (0 =? length paymentMethods)%nat
    (if currentPaymentMethodNotAvailable then purchase else None)
    (match paymentMethods with
     | first :: _ => activeContent first
     | [] => None
     end)
    (match purchase with
     | Some _ => None
     | None => Some (mkCheckbox useAsPrimaryPaymentMethod assignAllSubscriptionsText
                       (negb useAsPrimaryPaymentMethod))
     end)
    (isStripeLoading useStripe)
    (match stripeLoadingError useStripe with
     | Some message => [reduxDispatch (errorNotice (JStr message) None)]
     | None => []
     end).
End Page.
End PaymentMethodAdd.

(** ** The upsell nudge ([client/blocks/domain-to-plan-nudge/index.jsx]) *)

Module DomainToPlanNudge.

(** The object [getPlansBySiteId] returns, as far as the component reads it. *)
Record SitePlans : Type := mkSitePlans { hasLoadedFromServer : JsVal }.

(** The properties the component reads. *)
Record props : Type := mkProps {
  isEligible : JsVal;
  discountedRawPrice : JsVal;
  rawPrice : JsVal;
  siteId : JsVal;
  sitePlans : SitePlans;
  translate : string -> list JsVal -> string;
  userCurrency : JsVal
}.

(** The properties handed to [UpsellNudge]. *)
Record UpsellNudge : Type := mkUpsellNudge {
  callToAction : string;
  event : string;
  dismissPreferenceName : string;
  feature : string;
  href : string;
  list_ : list string;
  plan : string;
  price : option (JsVal * JsVal);
  showIcon : bool;
  title : string
}.

(** A child of the component's [div]: a plain value or the nudge. *)
Inductive Child : Type :=
  | Value (v : JsVal)
  | Nudge (element : UpsellNudge).

(** The [div] the component returns: the site the plans are queried for and
    the child that follows. *)
Record Div : Type := mkDiv {
  className : string;
  QuerySitePlans_siteId : JsVal;
  nudge : Child
}.

(** What [connect] adds to the component's own properties. *)
Record StateProps (Site : Type) : Type := mkStateProps {
  mapped_isEligible : JsVal;
  mapped_discountedRawPrice : JsVal;
  mapped_productId : JsVal;
  mapped_productSlug : string;
  mapped_rawDiscount : JsVal;
  mapped_rawPrice : JsVal;
  mapped_site : Site;
  mapped_siteId : JsVal;
  mapped_sitePlans : SitePlans;
  mapped_userCurrency : JsVal
}.
Arguments mkStateProps {Site} _ _ _ _ _ _ _ _ _ _.
Arguments mapped_isEligible {Site} _.
Arguments mapped_discountedRawPrice {Site} _.
Arguments mapped_productId {Site} _.
Arguments mapped_productSlug {Site} _.
Arguments mapped_rawDiscount {Site} _.
Arguments mapped_rawPrice {Site} _.
Arguments mapped_site {Site} _.
Arguments mapped_siteId {Site} _.
Arguments mapped_sitePlans {Site} _.
Arguments mapped_userCurrency {Site} _.

(** The selectors and constants the module imports. *)
Record Imports (State Site : Type) : Type := mkImports {
  PLAN_PERSONAL : string;
  FEATURE_NO_ADS : string;
  formatCurrency : JsVal -> JsVal -> JsVal;
  getPlanProductId : string -> JsVal;
  getSelectedSiteId : State -> JsVal;
  getSite : State -> JsVal -> Site;
  getCurrentUserCurrencyCode : State -> JsVal;
  getSitePlanRawPrice : State -> JsVal -> string -> JsVal;
  getPlanDiscountedRawPrice : State -> JsVal -> string -> JsVal;
  getPlanRawDiscount : State -> JsVal -> string -> JsVal;
  getPlansBySiteId : State -> JsVal -> SitePlans;
  isEligibleForDomainToPaidPlanUpsell : State -> JsVal -> JsVal
}.
Arguments PLAN_PERSONAL {State Site} _.
Arguments FEATURE_NO_ADS {State Site} _.
Arguments formatCurrency {State Site} _ _ _.
Arguments getPlanProductId {State Site} _ _.
Arguments getSelectedSiteId {State Site} _ _.
Arguments getSite {State Site} _ _ _.
Arguments getCurrentUserCurrencyCode {State Site} _ _.
Arguments getSitePlanRawPrice {State Site} _ _ _ _.
Arguments getPlanDiscountedRawPrice {State Site} _ _ _ _.
Arguments getPlanRawDiscount {State Site} _ _ _ _.
Arguments getPlansBySiteId {State Site} _ _ _.
Arguments isEligibleForDomainToPaidPlanUpsell {State Site} _ _ _.

Section Component.
Context {State Site : Type} (imports : Imports State Site).

(** [isSiteEligible()]: the first falsy operand, or the last one. *)
Definition isSiteEligible (this : props) : JsVal :=
  js_and (js_and (hasLoadedFromServer (sitePlans this)) (rawPrice this)) (isEligible this).

(** [renderDomainToPlanNudge()].  The translator's comment is no part of
    the text and is left out. *)
Definition renderDomainToPlanNudge (this : props) : UpsellNudge :=
  let prices :=
    if truthy (discountedRawPrice this)
    then Some (rawPrice this, discountedRawPrice this)
    else None in
  mkUpsellNudge
    (translate this "Upgrade for %s"
       [formatCurrency imports (js_or (discountedRawPrice this) (rawPrice this))
          (userCurrency this)])
    "domain_to_personal_nudge"
    "domain-to-plan-nudge"
    (FEATURE_NO_ADS imports)
    ("/checkout/" +:+ js_toString (siteId this) +:+ "/personal")
    [translate this "Remove WordPress.com Ads" [];
     translate this "Access unlimited customer support via email" [];
     translate this "Use with your Current Custom Domain" []]
    (PLAN_PERSONAL imports)
    prices
    true
    (translate this "Upgrade to a Personal Plan and Save!" []).

(** [render()]: [isSiteEligible() && renderDomainToPlanNudge()] after the
    plans query. *)
Definition render (this : props) : Div :=
  mkDiv "domain-to-plan-nudge" (siteId this)
    (if truthy (isSiteEligible this)
     then Nudge (renderDomainToPlanNudge this)
     else Value (isSiteEligible this)).

(** The function handed to [connect]. *)
Definition mapStateToProps (state : State) (props_siteId : JsVal) : StateProps Site :=
  let siteId := js_or props_siteId (getSelectedSiteId imports state) in
  let productSlug := PLAN_PERSONAL imports in
  let productId := getPlanProductId imports (PLAN_PERSONAL imports) in
  mkStateProps
    (isEligibleForDomainToPaidPlanUpsell imports state siteId)
    (getPlanDiscountedRawPrice imports state siteId productSlug)
    productId
    productSlug
    (js_or (getPlanRawDiscount imports state siteId productSlug) (JNum 0))
    (getSitePlanRawPrice imports state siteId productSlug)
    (getSite imports state siteId)
    siteId
    (getPlansBySiteId imports state siteId)
    (getCurrentUserCurrencyCode imports state).

(** The connected component: the mapped properties take the place of the
    own ones of the same name, [localize] adds [translate]. *)
Definition connected (translate : string -> list JsVal -> string) (state : State)
    (props_siteId : JsVal) : Div :=
  let mapped := mapStateToProps state props_siteId in
  render
    (mkProps (mapped_isEligible mapped) (mapped_discountedRawPrice mapped)
       (mapped_rawPrice mapped) (mapped_siteId mapped) (mapped_sitePlans mapped)
       translate (mapped_userCurrency mapped)).
End Component.
End DomainToPlanNudge.

(** ** More of what a store may promise *)

Section MoreStoreLaws.
Context {State : Type} (store : Store State).

(** The reducer records what is written: a field holds the value set, and an
    error written leaves the list of incomplete keys alone. *)
Record RecordsWrites : Prop := {
  field_value_written : forall s key val,
    exists f, getFields store (reducer store s (setFieldValue key val)) !! key = Some f
              /\ value f = val;
  card_error_incomplete : forall s key message,
    getIncompleteFieldKeys store (reducer store s (setCardDataError key message))
    = getIncompleteFieldKeys store s
}.
End MoreStoreLaws.
Arguments field_value_written {State store} _.
Arguments card_error_incomplete {State store} _.

(** ** A nudge to look at *)

(** Imports to run the nudge on: the two constants as
    [@automattic/calypso-products] names them, and stand-ins for the
    currency format and the selectors over a state that is one site. *)
Record SiteState : Type := mkSiteState {
  selectedSiteId : JsVal;
  plansLoaded : JsVal;
  personalRawPrice : JsVal;
  personalDiscountedRawPrice : JsVal;
  eligible : JsVal
}.

Definition sampleImports : DomainToPlanNudge.Imports SiteState unit :=
  DomainToPlanNudge.mkImports SiteState unit
    "personal-bundle"
    "no-adverts/no-adverts.php"
    (fun amount code => JStr (js_toString code +:+ " " +:+ js_toString amount))
    (fun _ => JNum 1009)
    selectedSiteId
    (fun _ _ => tt)
    (fun _ => JStr "USD")
    (fun state _ _ => personalRawPrice state)
    (fun state _ _ => personalDiscountedRawPrice state)
    (fun _ _ _ => JUndefined)
    (fun state _ => DomainToPlanNudge.mkSitePlans (plansLoaded state))
    (fun state _ => eligible state).

(** A translation that hands back the text and drops the arguments. *)
Definition plainTranslate (text : string) (args : list JsVal) : string := text.

(** An eligible site whose plans have loaded with a raw price of 0. *)
Definition freePlanProps : DomainToPlanNudge.props :=
  DomainToPlanNudge.mkProps (JBool true) JNull (JNum 0) (JNum 77)
    (DomainToPlanNudge.mkSitePlans (JBool true)) plainTranslate (JStr "USD").

(** An eligible site with a personal plan of 48, reduced to 36. *)
Definition reducedPlanSite : SiteState :=
  mkSiteState (JNum 77) (JBool true) (JNum 48) (JNum 36) (JBool true).

(** * Properties *)

(** ** Traces *)

Section Traces.
Context {P : Type}.

Lemma dispatched_Dispatch (acts : list Action) :
  dispatched (P:=P) (Dispatch <$> acts) = acts.
Proof.
  induction acts as [|a acts IH]; [done|].
  cbn. unfold dispatched in IH. by rewrite IH.
Qed.

Lemma emitted_Dispatch (acts : list Action) :
  emitted (P:=P) (Dispatch <$> acts) = [].
Proof. by induction acts. Qed.

Lemma submitted_Dispatch (acts : list Action) :
  submitted (P:=P) (Dispatch <$> acts) = [].
Proof. by induction acts. Qed.
End Traces.

(** ** What one call of the validator does *)

Section ValidatorRun.
Context {State P : Type} (store : Store State) (__ : string -> string).

Lemma ret_bind {A B} (a : A) (k : A -> M State P B) (s : State) :
  bind (ret a) k s = k a s.
Proof. unfold bind, ret. by destruct (k a s) as [[r s2] t2]. Qed.

Lemma select_bind {A B} (f : State -> A) (k : A -> M State P B) (s : State) :
  bind (select f) k s = k (f s) s.
Proof. unfold bind, select. by destruct (k (f s) s) as [[r s2] t2]. Qed.

Lemma dispatch_bind {B} (a : Action) (k : unit -> M State P B) (s : State) :
  bind (dispatch store a) k s
  = (let '(r, s2, t2) := k tt (reducer store s a) in (r, s2, Dispatch a :: t2)).
Proof. unfold bind, dispatch. by destruct (k tt (reducer store s a)) as [[r s2] t2]. Qed.

Lemma bind_Ret {A B} (m : M State P A) (k : A -> M State P B)
    (s s1 : State) (a : A) (t1 : list (Effect P)) :
  m s = (Ret a, s1, t1) ->
  bind m k s = (let '(r, s2, t2) := k a s1 in (r, s2, t1 ++ t2)).
Proof. intros Hm. unfold bind. by rewrite Hm. Qed.

Lemma Array_map_dispatch (act : string -> Action) (keys : list string) (s : State) :
  Array_map (P:=P) (fun key => dispatch store (act key)) keys s
  = (Ret ((fun _ => tt) <$> keys),
     fold_left (reducer store) (act <$> keys) s,
     Dispatch <$> (act <$> keys)).
Proof.
  revert s. induction keys as [|key keys IH]; intros s; [done|].
  cbn [Array_map]. rewrite dispatch_bind.
  rewrite (bind_Ret _ _ _ _ _ _ (IH _)).
  unfold ret. by rewrite app_nil_r.
Qed.

(** The fan-out of error writes and the decision that follows it. *)
Lemma fan_out_and_decide (errors_seen name_missing : bool) (keys : list string) (s : State) :
  bind (P:=P)
    (if (0 <? length keys)%nat
     then
       Array_map
         (fun key => dispatch store (setCardDataError key (__ "This field is required")))
         keys ;;;
       ret tt
     else ret tt)
    (fun _ =>
       if errors_seen || name_missing || (0 <? length keys)%nat
       then ret false
       else ret true) s
  = (Ret (negb (errors_seen || name_missing || (0 <? length keys)%nat)),
     fold_left (reducer store) (requiredErrors __ keys) s,
     Dispatch <$> requiredErrors __ keys).
Proof.
  destruct keys as [|key keys].
  - cbn [length Nat.ltb Nat.leb]. rewrite ret_bind.
    by destruct (errors_seen || name_missing || false).
  - change (0 <? length (key :: keys))%nat with true.
    rewrite !orb_true_r. cbn [negb].
    pose proof (Array_map_dispatch
      (fun key => setCardDataError key (__ "This field is required"))
      (key :: keys) s) as Hmap.
    pose proof (bind_Ret _ (fun _ => ret tt) _ _ _ _ Hmap) as Hfan.
    unfold ret at 2 in Hfan. rewrite app_nil_r in Hfan.
    rewrite (bind_Ret _ _ _ _ _ _ Hfan).
    unfold ret. by rewrite app_nil_r.
Qed.

(** The call for partner [stripe], in closed form. *)
Lemma isCreditCardFormValid_stripe (s : State) :
  isCreditCardFormValid (P:=P) store "stripe" __ s
  = (Ret (negb (areThereErrors (getCardDataErrors store (afterTouch store s))
                || nameMissing store s
                || (0 <? length (getIncompleteFieldKeys store (afterTouch store s)))%nat)),
     fold_left (reducer store)
       (requiredErrors __ (getIncompleteFieldKeys store (afterTouch store s))) (afterTouch store s),
     Dispatch <$> (touchWrites store s ++ requiredErrors __ (getIncompleteFieldKeys store (afterTouch store s)))).
Proof.
  unfold isCreditCardFormValid.
  change (String.eqb "stripe" "stripe") with true. cbv iota.
  rewrite select_bind. cbv zeta.
  unfold afterTouch, touchWrites. fold (nameMissing store s).
  destruct (nameMissing store s) eqn:Hname.
  - rewrite dispatch_bind, !select_bind, fan_out_and_decide. done.
  - rewrite ret_bind, !select_bind, fan_out_and_decide. done.
Qed.
End ValidatorRun.

(** ** The reads of the validator *)

Lemma areThereErrors_true (errors : CardDataErrors) :
  areThereErrors errors = true
  <-> exists key v, errors !! key = Some v /\ truthy v = true.
Proof.
  unfold areThereErrors, Object_keys, js_get. rewrite existsb_exists. split.
  - intros (key & Hin & Hv).
    apply list_elem_of_In, list_elem_of_fmap in Hin as ([key' v] & Hkey & Hin).
    simpl in Hkey. subst key.
    apply elem_of_map_to_list in Hin. rewrite Hin in Hv.
    by exists key', v.
  - intros (key & v & Hkey & Hv). exists key. split.
    + apply list_elem_of_In, list_elem_of_fmap. exists (key, v). split; [done|].
      by apply elem_of_map_to_list.
    + by rewrite Hkey.
Qed.

Lemma areThereErrors_false (errors : CardDataErrors) :
  areThereErrors errors = false
  <-> forall key v, errors !! key = Some v -> truthy v = false.
Proof.
  rewrite <- not_true_iff_false, areThereErrors_true. split.
  - intros Hno key v Hkey. apply not_true_iff_false. intros Hv. apply Hno. eauto.
  - intros Hall (key & v & Hkey & Hv). rewrite (Hall _ _ Hkey) in Hv. discriminate.
Qed.

Lemma js_not_length (v : string) : js_not (js_length v) = true <-> v = "".
Proof.
  unfold js_not, js_length, truthy. destruct v as [|c v]; cbn; [done|].
  split; [|discriminate]. rewrite negb_involutive. intros H%Z.eqb_eq. lia.
Qed.

Section NameReads.
Context {State : Type} (store : Store State).

Lemma nameMissing_true (s : State) :
  nameMissing store s = true
  <-> getFields store s !! "cardholderName" = None
      \/ exists f, getFields store s !! "cardholderName" = Some f /\ value f = "".
Proof.
  unfold nameMissing, cardholderName_value_length, cardholderName.
  destruct (getFields store s !! "cardholderName") as [f|].
  - rewrite js_not_length. split.
    + intros Hv. right. by exists f.
    + intros [?|(f' & [= <-] & Hv)]; done.
  - split; [by left|done].
Qed.

Lemma nameMissing_false (s : State) :
  nameMissing store s = false
  <-> exists f, getFields store s !! "cardholderName" = Some f /\ value f <> "".
Proof.
  rewrite <- not_true_iff_false, nameMissing_true.
  destruct (getFields store s !! "cardholderName") as [f|]; split.
  - intros Hno. exists f. split; [done|]. intros Hv. apply Hno. right. by exists f.
  - intros (f1 & [= <-] & Hv) [?|(f2 & [= <-] & Hv')]; done.
  - intros Hno. destruct Hno. by left.
  - intros (f & ? & _). done.
Qed.

Lemma afterTouch_present (s : State) :
  nameMissing store s = false -> afterTouch store s = s.
Proof. unfold afterTouch. by intros ->. Qed.
End NameReads.

Section IncompleteKeys.
Context {State : Type} (store : Store State).

Lemma hasIncompleteKeys_ltb (s : State) :
  (0 <? length (getIncompleteFieldKeys store s))%nat = true <-> hasIncompleteKeys store s.
Proof.
  unfold hasIncompleteKeys. destruct (getIncompleteFieldKeys store s); cbn; split; done.
Qed.
End IncompleteKeys.

(** ** Writes of a call, by kind *)

Section Writes.
Context {State : Type} (store : Store State) (__ : string -> string).

Lemma fieldValueWrites_requiredErrors (keys : list string) :
  fieldValueWrites (requiredErrors __ keys) = [].
Proof. by induction keys. Qed.

Lemma fieldValueWrites_touch (keys : list string) :
  fieldValueWrites (touch :: requiredErrors __ keys) = [("cardholderName", "")].
Proof.
  pose proof (fieldValueWrites_requiredErrors keys) as Hrest.
  unfold fieldValueWrites in *. cbn. by rewrite Hrest.
Qed.

Lemma cardDataErrorWrites_requiredErrors (keys : list string) :
  cardDataErrorWrites (requiredErrors __ keys)
  = (fun key => (key, __ "This field is required")) <$> keys.
Proof.
  induction keys as [|key keys IH]; [done|].
  cbn. unfold cardDataErrorWrites, requiredErrors in IH. by rewrite IH.
Qed.

Lemma errorWritesFor_requiredErrors (keys : list string) (key : string) :
  NoDup keys -> key ∈ keys -> errorWritesFor key (requiredErrors __ keys) = 1.
Proof.
  intros Hdistinct Hkey. unfold errorWritesFor.
  rewrite cardDataErrorWrites_requiredErrors, <- list_fmap_compose.
  replace ((fst ∘ (fun k => (k, __ "This field is required"))) <$> keys) with keys.
  - apply NoDup_ListNoDup in Hdistinct.
    apply (proj1 (NoDup_count_occ' String.string_dec keys) Hdistinct).
    by apply list_elem_of_In.
  - clear. induction keys as [|k keys IH]; [done|]. cbn. by rewrite <- IH.
Qed.

Lemma requiredErrors_keep_fields (keys : list string) (s : State) :
  SeparateSlices store ->
  getFields store (fold_left (reducer store) (requiredErrors __ keys) s)
  = getFields store s.
Proof.
  intros Hslices. revert s. induction keys as [|key keys IH]; intros s; [done|].
  cbn. rewrite IH. apply (card_error_fields Hslices).
Qed.

Lemma requiredErrors_keep_other_errors (keys : list string) (s : State) (other : string) :
  SeparateSlices store ->
  other ∉ keys ->
  getCardDataErrors store (fold_left (reducer store) (requiredErrors __ keys) s) !! other
  = getCardDataErrors store s !! other.
Proof.
  intros Hslices. revert s. induction keys as [|key keys IH]; intros s Hother; [done|].
  apply not_elem_of_cons in Hother as [Hne Hother].
  cbn. rewrite IH by done. by apply (card_error_other_errors Hslices).
Qed.
End Writes.

(** ** The label *)

Lemma append_empty (text : string) : text +:+ "" = text.
Proof.
  induction text as [|c rest IH]; [done|].
  change (String c (rest +:+ "") = String c rest). by rewrite IH.
Qed.

Lemma sprintf_Pay (amountText : string) :
  sprintf "Pay %s" [amountText] = "Pay " +:+ amountText.
Proof. cbn [sprintf]. rewrite append_empty. reflexivity. Qed.

(** ** The modelled store *)

Lemma cardStore_slices : SeparateSlices cardStore.
Proof.
  split; try done.
  - intros s key val other Hother. cbn. by rewrite lookup_insert_ne.
  - intros s key message other Hother. cbn. by rewrite lookup_insert_ne.
Qed.

(** * The claims *)

(** ** The validator *)

Section ValidatorClaims.
Context {State P : Type} (store : Store State) (__ : string -> string).

Abbreviation validate := (isCreditCardFormValid (P:=P) store "stripe" __).

(** A call with the name missing or empty, in closed form. *)
Lemma validate_name_missing (s : State) :
  nameMissing store s = true ->
  let touched := reducer store s touch in
  let keys := getIncompleteFieldKeys store touched in
  validate s
  = (Ret false,
     fold_left (reducer store) (requiredErrors __ keys) touched,
     Dispatch <$> (touch :: requiredErrors __ keys)).
Proof.
  intros Hname. cbv zeta. rewrite isCreditCardFormValid_stripe.
  unfold afterTouch, touchWrites. rewrite Hname.
  by rewrite orb_true_r.
Qed.

(** A call with a name entered, in closed form. *)
Lemma validate_name_present (s : State) :
  nameMissing store s = false ->
  let keys := getIncompleteFieldKeys store s in
  validate s
  = (Ret (negb (areThereErrors (getCardDataErrors store s) || (0 <? length keys)%nat)),
     fold_left (reducer store) (requiredErrors __ keys) s,
     Dispatch <$> requiredErrors __ keys).
Proof.
  intros Hname. cbv zeta. rewrite isCreditCardFormValid_stripe.
  unfold afterTouch, touchWrites. rewrite Hname.
  by rewrite orb_false_r.
Qed.

(** C1 (amended).  For partner [stripe] and every state of the store, the
    validator returns a boolean, and it returns [false] exactly when some
    value of the card-data error object is truthy, or the fields object has
    no cardholder-name entry, or that entry's value is empty, or the list of
    incomplete keys is not empty; in every other case it returns [true]. *)
Theorem validator_false_iff (s : State) :
  let result := (validate s).1.1 in
  (result = Ret false
   <-> hasTruthyError store s
       \/ (nameAbsent store s \/ nameValueEmpty store s)
       \/ hasIncompleteKeys store s)
  /\ (result = Ret false \/ result = Ret true).
Proof.
  cbv zeta. destruct (nameMissing store s) eqn:Hname.
  - rewrite (validate_name_missing s Hname). cbn. split; [|by left].
    split; [|done]. intros _. right; left. by apply nameMissing_true.
  - rewrite (validate_name_present s Hname). cbn [fst].
    destruct (areThereErrors _) eqn:Herr; cbn [orb negb].
    { split; [|by left]. split; [intros _|reflexivity].
      left. by apply areThereErrors_true. }
    destruct (0 <? length (getIncompleteFieldKeys store s))%nat eqn:Hkeys; cbn [negb].
    { split; [|by left]. split; [intros _|reflexivity].
      right; right. by apply hasIncompleteKeys_ltb. }
    split; [|by right]. split; [done|].
    intros [He|[[Hn|Hn]|Hk]].
    + apply areThereErrors_true in He. congruence.
    + assert (nameMissing store s = true) by (apply nameMissing_true; by left).
      congruence.
    + assert (nameMissing store s = true) by (apply nameMissing_true; by right).
      congruence.
    + apply hasIncompleteKeys_ltb in Hk. congruence.
Qed.

(** C3.  For every partner other than [stripe] and every state the call
    throws: the range error naming the partner leaves the call, there is no
    boolean result, the store is as it was and nothing was dispatched. *)
Theorem unexpected_partner_throws (paymentPartner : string) (s : State) :
  paymentPartner <> "stripe" ->
  isCreditCardFormValid (P:=P) store paymentPartner __ s
  = (Throw (RangeError ("Unexpected payment partner "
                        +:+ dquote +:+ paymentPartner +:+ dquote)),
     s, []).
Proof.
  intros Hother. unfold isCreditCardFormValid.
  by destruct (String.eqb_spec paymentPartner "stripe").
Qed.

(** C5 (amended).  For every store whose cardholder-name field has the
    empty value (of length zero), the validator returns [false] and
    dispatches exactly one [set field value], for [cardholderName] with the
    empty string, before the error writes. *)
Theorem empty_name_touched_once (s : State) (f : Field) :
  getFields store s !! "cardholderName" = Some f ->
  value f = "" ->
  let touched := reducer store s touch in
  let keys := getIncompleteFieldKeys store touched in
  validate s
  = (Ret false,
     fold_left (reducer store) (requiredErrors __ keys) touched,
     Dispatch <$> (setFieldValue "cardholderName" "" :: requiredErrors __ keys))
  /\ fieldValueWrites (dispatched (validate s).2) = [("cardholderName", "")].
Proof.
  intros Hentry Hvalue. cbv zeta.
  assert (Hname : nameMissing store s = true).
  { apply nameMissing_true. right. by exists f. }
  rewrite (validate_name_missing s Hname). split; [done|].
  cbn [snd]. rewrite dispatched_Dispatch. apply fieldValueWrites_touch.
Qed.

(** C7.  For every store with a cardholder name that is not empty, no
    truthy value in the error object and no incomplete key, the validator
    returns [true], dispatches nothing and leaves the store as it was; two
    calls in a row both return [true] and dispatch nothing. *)
Theorem valid_store_passes_untouched (s : State) (f : Field) :
  getFields store s !! "cardholderName" = Some f ->
  value f <> "" ->
  (forall key v, getCardDataErrors store s !! key = Some v -> truthy v = false) ->
  getIncompleteFieldKeys store s = [] ->
  validate s = (Ret true, s, [])
  /\ (first <- validate ;; second <- validate ;; ret (first, second)) s
     = (Ret (true, true), s, []).
Proof.
  intros Hentry Hvalue Herrors Hkeys.
  assert (Hname : nameMissing store s = false).
  { apply nameMissing_false. by exists f. }
  assert (Hrun : validate s = (Ret true, s, [])).
  { rewrite (validate_name_present s Hname). rewrite Hkeys.
    apply areThereErrors_false in Herrors. by rewrite Herrors. }
  split; [done|].
  rewrite (bind_Ret _ _ _ _ _ _ Hrun).
  rewrite (bind_Ret _ _ _ _ _ _ Hrun).
  done.
Qed.

(** C9.  When the fields object has no cardholder-name entry the call does
    not throw: it returns [false] after one [set field value] dispatch for
    [cardholderName] with the empty string, as for an entry with the empty
    value. *)
Theorem absent_name_touched_once (s : State) :
  getFields store s !! "cardholderName" = None ->
  let touched := reducer store s touch in
  let keys := getIncompleteFieldKeys store touched in
  validate s
  = (Ret false,
     fold_left (reducer store) (requiredErrors __ keys) touched,
     Dispatch <$> (setFieldValue "cardholderName" "" :: requiredErrors __ keys))
  /\ fieldValueWrites (dispatched (validate s).2) = [("cardholderName", "")].
Proof.
  intros Hentry. cbv zeta.
  assert (Hname : nameMissing store s = true).
  { apply nameMissing_true. by left. }
  rewrite (validate_name_missing s Hname). split; [done|].
  cbn [snd]. rewrite dispatched_Dispatch. apply fieldValueWrites_touch.
Qed.

(** C4.  In a store where setting a field's value leaves the list of
    incomplete keys alone: when that list has N distinct keys, N at least 1,
    the validator returns [false] and dispatches exactly N [set card data
    error] actions, one for each incomplete key in the order of the list,
    each with the translation of [This field is required]. *)
Theorem incomplete_keys_get_required_error (s : State) :
  (forall s' key val,
      getIncompleteFieldKeys store (reducer store s' (setFieldValue key val))
      = getIncompleteFieldKeys store s') ->
  let keys := getIncompleteFieldKeys store s in
  NoDup keys ->
  1 <= length keys ->
  let writes := cardDataErrorWrites (dispatched (validate s).2) in
  (validate s).1.1 = Ret false
  /\ writes = (fun key => (key, __ "This field is required")) <$> keys
  /\ length writes = length keys
  /\ (forall key, key ∈ keys -> errorWritesFor key (dispatched (validate s).2) = 1).
Proof.
  intros Hslices keys Hdistinct Hsome. cbv zeta.
  rewrite isCreditCardFormValid_stripe. cbn [fst snd].
  assert (Hread : getIncompleteFieldKeys store (afterTouch store s) = keys).
  { unfold afterTouch. destruct (nameMissing store s); [apply Hslices|done]. }
  rewrite Hread, dispatched_Dispatch.
  assert (Hwrites : cardDataErrorWrites (touchWrites store s ++ requiredErrors __ keys)
                    = cardDataErrorWrites (requiredErrors __ keys)).
  { unfold touchWrites. by destruct (nameMissing store s). }
  unfold errorWritesFor. rewrite Hwrites, cardDataErrorWrites_requiredErrors.
  repeat split.
  - destruct keys; [cbn in Hsome; lia|]. cbn [length Nat.ltb Nat.leb].
    by rewrite orb_true_r.
  - by rewrite length_fmap.
  - intros key Hkey. rewrite <- cardDataErrorWrites_requiredErrors.
    by apply errorWritesFor_requiredErrors.
Qed.

(** C10.  In a store whose reducer keeps its parts apart, for every state:
    the call dispatches at most the touch of [cardholderName] with the empty
    string and then one error write for each incomplete key, nothing else;
    every other field and every other error key reads afterwards as before;
    and the boolean returned is computed from the error object as it was
    before the error writes. *)
Theorem validator_writes_are_framed (s : State) :
  SeparateSlices store ->
  let keys := getIncompleteFieldKeys store s in
  let result := (validate s).1.1 in
  let final := (validate s).1.2 in
  let trace := (validate s).2 in
  trace = Dispatch <$> ((if nameMissing store s
                         then [setFieldValue "cardholderName" ""]
                         else [])
                        ++ ((fun key => setCardDataError key (__ "This field is required"))
                              <$> keys))
  /\ (forall other, other <> "cardholderName" ->
        getFields store final !! other = getFields store s !! other)
  /\ (forall other, other ∉ keys ->
        getCardDataErrors store final !! other = getCardDataErrors store s !! other)
  /\ result = Ret (negb (areThereErrors (getCardDataErrors store s)
                         || nameMissing store s
                         || (0 <? length keys)%nat)).
Proof.
  intros Hslices. cbv zeta.
  rewrite isCreditCardFormValid_stripe. cbn [fst snd].
  assert (Hkeys : getIncompleteFieldKeys store (afterTouch store s)
                  = getIncompleteFieldKeys store s).
  { unfold afterTouch. destruct (nameMissing store s); [|done].
    apply (field_value_incomplete Hslices). }
  assert (Herrors : getCardDataErrors store (afterTouch store s)
                    = getCardDataErrors store s).
  { unfold afterTouch. destruct (nameMissing store s); [|done].
    apply (field_value_errors Hslices). }
  rewrite Hkeys, Herrors. repeat split.
  - intros other Hother. rewrite (requiredErrors_keep_fields store) by done.
    unfold afterTouch. destruct (nameMissing store s); [|done].
    by apply (field_value_other_fields Hslices).
  - intros other Hother. rewrite (requiredErrors_keep_other_errors store) by done.
    by rewrite Herrors.
Qed.
End ValidatorClaims.

(** ** The component *)

Section ComponentClaims.
Context {State Stripe StripeConfiguration : Type}.
Context (hooks : Hooks) (disabled : bool) (store : Store State).
Context (stripe : Stripe) (stripeConfiguration : StripeConfiguration).

Abbreviation Submission := (Payload Stripe StripeConfiguration).
Abbreviation render := (CreditCardPayButton hooks disabled store stripe stripeConfiguration).

(** C2.  A click on the button rendered from the current state: when the
    validator returns [true] the click emits one [STRIPE_TRANSACTION_BEGIN]
    event and then calls the submission callback once, with [card] and a
    payload carrying the current cardholder name, the line items and the
    total, and nothing else happens; when the validator returns [false] the
    click emits no event and makes no submission call.  The validator does
    not throw for the component's partner. *)
Theorem click_submits_once_if_valid (activeButtonText : JsVal) (s : State) :
  let validation :=
    isCreditCardFormValid (P:=Submission) store "stripe" (useI18n hooks) s in
  let click := Button.onClick (render activeButtonText s) s in
  match validation.1.1 with
  | Ret true =>
      exists f,
        getFields store s !! "cardholderName" = Some f
        /\ click
           = (Ret tt, s,
              [OnEvent (mkEvent "STRIPE_TRANSACTION_BEGIN");
               OnClick "card"
                 (mkPayload stripe (JStr (value f)) (useLineItems hooks).1
                    (useLineItems hooks).2 stripeConfiguration "stripe")])
        /\ length (emitted click.2) = 1
        /\ length (submitted click.2) = 1
  | Ret false =>
      click.1.1 = Ret tt
      /\ emitted click.2 = []
      /\ submitted click.2 = []
  | Throw _ => False
  end.
Proof.
  cbv zeta. unfold CreditCardPayButton.
  destruct (useLineItems hooks) as [items total]. cbn [Button.onClick fst snd].
  change (String.eqb "stripe" "stripe") with true. cbv iota.
  pose proof (isCreditCardFormValid_stripe (P:=Submission) store (useI18n hooks) s) as Hrun.
  rewrite (bind_Ret _ _ _ _ _ _ Hrun). rewrite Hrun. cbn [fst snd].
  destruct (negb _) eqn:Hvalid.
  - apply negb_true_iff in Hvalid.
    apply orb_false_elim in Hvalid as [Hvalid Hkeys].
    apply orb_false_elim in Hvalid as [_ Hname].
    rewrite (afterTouch_present store s Hname) in Hkeys |- *.
    unfold touchWrites. rewrite Hname.
    destruct (getIncompleteFieldKeys store s) as [|key keys]; [|done].
    apply nameMissing_false in Hname as (f & Hentry & _).
    exists f. split; [done|].
    unfold cardholderName_value, cardholderName. rewrite Hentry.
    done.
  - unfold ret. cbn [fst snd]. rewrite app_nil_r.
    by rewrite emitted_Dispatch, submitted_Dispatch.
Qed.

(** C6.  The label and the busy flag depend on the form status, the total
    and the override only (and on the translation in use): [SUBMITTING]
    gives the translation of [Processing…] and busy; [READY] gives the
    override when there is one, else the translated [Pay %s] filled with the
    total's display value, and not busy; any other status gives the
    translation of [Please wait…] and not busy.  Untranslated, a total
    displayed as [$9.99] gives [Pay $9.99]. *)
Theorem label_and_busy_follow_status (activeButtonText : JsVal) (s : State) :
  let button := render activeButtonText s in
  let __ := useI18n hooks in
  let total := (useLineItems hooks).2 in
  let pay := JStr (sprintf (__ "Pay %s") [displayValue (amount total)]) in
  Button.children button = ButtonContents __ (useFormStatus hooks) total activeButtonText
  /\ Button.busy button = bool_decide (useFormStatus hooks = SUBMITTING)
  /\ match useFormStatus hooks with
     | SUBMITTING =>
         Button.children button = JStr (__ "Processing…") /\ Button.busy button = true
     | READY =>
         Button.children button = (if truthy activeButtonText then activeButtonText else pay)
         /\ Button.busy button = false
     | LOADING | VALIDATING | COMPLETE =>
         Button.children button = JStr (__ "Please wait…") /\ Button.busy button = false
     end
  /\ ButtonContents __ READY total JUndefined = pay
  /\ (forall c rest,
        ButtonContents __ READY total (JStr (String c rest)) = JStr (String c rest))
  /\ ButtonContents noTranslation SUBMITTING total activeButtonText = JStr "Processing…"
  /\ ButtonContents noTranslation READY total JUndefined
     = JStr ("Pay " +:+ displayValue (amount total))
  /\ ButtonContents noTranslation READY
       (mkLineItem "total" "total" "Total" (mkAmount "USD" 999 "$9.99")) JUndefined
     = JStr "Pay $9.99"
  /\ ButtonContents noTranslation READY total (JStr "Save payment method")
     = JStr "Save payment method".
Proof.
  cbv zeta. unfold CreditCardPayButton.
  destruct (useLineItems hooks) as [items total].
  cbn [Button.children Button.busy fst snd].
  repeat split; try done.
  - by destruct (useFormStatus hooks).
  - by destruct (useFormStatus hooks).
  - unfold ButtonContents, noTranslation. cbn [decide]. by rewrite sprintf_Pay.
Qed.

(** C8.  With the status [READY], an override that is falsy (the empty
    string, [undefined], [null], [false], zero, [NaN]) is not applied: the
    label is the translated [Pay %s] filled with the total's display value,
    the same as when no override is given. *)
Theorem falsy_override_falls_back (activeButtonText : JsVal) (s : State) :
  truthy activeButtonText = false ->
  useFormStatus hooks = READY ->
  let __ := useI18n hooks in
  let total := (useLineItems hooks).2 in
  Button.children (render activeButtonText s)
  = JStr (sprintf (__ "Pay %s") [displayValue (amount total)])
  /\ Button.children (render activeButtonText s) = Button.children (render JUndefined s).
Proof.
  intros Hfalsy Hready. cbv zeta. unfold CreditCardPayButton.
  destruct (useLineItems hooks) as [items total].
  cbn [Button.children fst snd]. rewrite Hready.
  unfold ButtonContents, js_or. cbn [decide]. by rewrite Hfalsy.
Qed.
End ComponentClaims.

(** ** The modelled store at work *)

Example filledForm_is_valid :
  isCreditCardFormValid (P:=unit) cardStore "stripe" noTranslation filledForm
  = (Ret true, filledForm, []).
Proof. reflexivity. Qed.

Example incompleteForm_is_refused :
  (isCreditCardFormValid (P:=unit) cardStore "stripe" noTranslation incompleteForm).1.1
  = Ret false
  /\ (isCreditCardFormValid (P:=unit) cardStore "stripe" noTranslation incompleteForm).2
     = [Dispatch (setCardDataError "cardCvc" "This field is required");
        Dispatch (setCardDataError "cardExpiry" "This field is required")].
Proof. split; reflexivity. Qed.

Example emptyForm_is_touched :
  (isCreditCardFormValid (P:=unit) cardStore "stripe" noTranslation emptyForm).1.1
  = Ret false
  /\ (isCreditCardFormValid (P:=unit) cardStore "stripe" noTranslation emptyForm).2
     = [Dispatch (setFieldValue "cardholderName" "")]
  /\ fields (isCreditCardFormValid (P:=unit) cardStore "stripe" noTranslation emptyForm).1.2
     !! "cardholderName"
     = Some (mkField "" false None).
Proof. repeat split; reflexivity. Qed.

(** C1, as stated, fails where the fields object has no cardholder-name
    entry: the validator returns [false] although no error value is truthy,
    no cardholder-name value is empty (there is none) and no key is
    incomplete. *)
Lemma absent_name_refused_without_stated_cause :
  (isCreditCardFormValid (P:=unit) cardStore "stripe" noTranslation emptyForm).1.1
  = Ret false
  /\ ~ (hasTruthyError cardStore emptyForm
        \/ nameValueEmpty cardStore emptyForm
        \/ hasIncompleteKeys cardStore emptyForm).
Proof.
  split; [reflexivity|].
  intros [(key & v & Hkey & _)|[(f & Hentry & _)|Hkeys]].
  - cbn in Hkey. by rewrite lookup_empty in Hkey.
  - cbn in Hentry. by rewrite lookup_empty in Hentry.
  - by apply Hkeys.
Qed.

Lemma unexpected_partner_throws_witness :
  "paypal" <> "stripe"
  /\ isCreditCardFormValid (P:=unit) cardStore "paypal" noTranslation filledForm
     = (Throw (RangeError ("Unexpected payment partner " +:+ dquote +:+ "paypal" +:+ dquote)),
        filledForm, []).
Proof.
  assert (Hother : "paypal" <> "stripe") by discriminate.
  split; [exact Hother|].
  exact (unexpected_partner_throws cardStore noTranslation "paypal" filledForm Hother).
Defined.

Lemma incomplete_keys_get_required_error_witness :
  (isCreditCardFormValid (P:=unit) cardStore "stripe" noTranslation incompleteForm).1.1
  = Ret false
  /\ cardDataErrorWrites
       (dispatched
          (isCreditCardFormValid (P:=unit) cardStore "stripe" noTranslation incompleteForm).2)
     = [("cardCvc", "This field is required"); ("cardExpiry", "This field is required")].
Proof.
  assert (Hdistinct : NoDup (getIncompleteFieldKeys cardStore incompleteForm)).
  { cbn. apply NoDup_cons. split; [|apply NoDup_singleton].
    intros Hin%list_elem_of_singleton. discriminate. }
  assert (Hsome : 1 <= length (getIncompleteFieldKeys cardStore incompleteForm)).
  { cbn. lia. }
  pose proof (incomplete_keys_get_required_error (P:=unit) cardStore noTranslation
                incompleteForm (fun _ _ _ => eq_refl) Hdistinct Hsome)
    as (Hresult & Hwrites & _).
  split; [exact Hresult|exact Hwrites].
Defined.

(** C5, as stated, fails on a name of one blank: its trimmed form is empty,
    yet the validator returns [true] and dispatches nothing. *)
Lemma blank_name_passes_untouched :
  (exists f, getFields cardStore blankNameForm !! "cardholderName" = Some f
             /\ value f = " "
             /\ trim (value f) = "")
  /\ isCreditCardFormValid (P:=unit) cardStore "stripe" noTranslation blankNameForm
     = (Ret true, blankNameForm, []).
Proof. split; [by exists (mkField " " true None)|reflexivity]. Qed.

Lemma empty_name_touched_once_witness :
  (isCreditCardFormValid (P:=unit) cardStore "stripe" noTranslation emptyNameForm).1.1
  = Ret false
  /\ fieldValueWrites
       (dispatched
          (isCreditCardFormValid (P:=unit) cardStore "stripe" noTranslation emptyNameForm).2)
     = [("cardholderName", "")].
Proof.
  pose proof (empty_name_touched_once (P:=unit) cardStore noTranslation emptyNameForm
                (mkField "" false None) eq_refl eq_refl) as [Hrun Hwrites].
  split; [by rewrite Hrun|exact Hwrites].
Defined.

Lemma valid_store_passes_untouched_witness :
  isCreditCardFormValid (P:=unit) cardStore "stripe" noTranslation filledForm
  = (Ret true, filledForm, []).
Proof.
  assert (Hvalue : value (mkField "Ada Lovelace" true None) <> "") by discriminate.
  assert (Herrors : forall key v,
             getCardDataErrors cardStore filledForm !! key = Some v -> truthy v = false).
  { intros key v Hkey. cbn in Hkey. by rewrite lookup_empty in Hkey. }
  exact (proj1 (valid_store_passes_untouched (P:=unit) cardStore noTranslation filledForm
                  (mkField "Ada Lovelace" true None) eq_refl Hvalue Herrors eq_refl)).
Defined.

Lemma absent_name_touched_once_witness :
  (isCreditCardFormValid (P:=unit) cardStore "stripe" noTranslation emptyForm).1.1
  = Ret false
  /\ fieldValueWrites
       (dispatched
          (isCreditCardFormValid (P:=unit) cardStore "stripe" noTranslation emptyForm).2)
     = [("cardholderName", "")].
Proof.
  pose proof (absent_name_touched_once (P:=unit) cardStore noTranslation emptyForm eq_refl)
    as [Hrun Hwrites].
  split; [by rewrite Hrun|exact Hwrites].
Defined.

Lemma validator_writes_are_framed_witness :
  (isCreditCardFormValid (P:=unit) cardStore "stripe" noTranslation incompleteForm).2
  = [Dispatch (setCardDataError "cardCvc" "This field is required");
     Dispatch (setCardDataError "cardExpiry" "This field is required")]
  /\ (isCreditCardFormValid (P:=unit) cardStore "stripe" noTranslation incompleteForm).1.1
     = Ret false.
Proof.
  pose proof (validator_writes_are_framed (P:=unit) cardStore noTranslation incompleteForm
                cardStore_slices) as (Htrace & _ & _ & Hresult).
  split; [exact Htrace|exact Hresult].
Defined.

Lemma falsy_override_falls_back_witness :
  truthy (JStr "") = false
  /\ Button.children
       (CreditCardPayButton readyHooks false cardStore tt tt (JStr "") filledForm)
     = JStr "Pay $9.99".
Proof.
  split; [reflexivity|].
  exact (proj1 (falsy_override_falls_back readyHooks false cardStore tt tt (JStr "")
                  filledForm eq_refl eq_refl)).
Defined.

Example click_on_filledForm :
  Button.onClick
    (CreditCardPayButton readyHooks false cardStore tt tt JUndefined filledForm) filledForm
  = (Ret tt, filledForm,
     [OnEvent (mkEvent "STRIPE_TRANSACTION_BEGIN");
      OnClick "card"
        (mkPayload tt (JStr "Ada Lovelace") (useLineItems readyHooks).1
           (useLineItems readyHooks).2 tt "stripe")]).
Proof. reflexivity. Qed.

Example click_on_incompleteForm :
  (Button.onClick
     (CreditCardPayButton readyHooks false cardStore tt tt JUndefined incompleteForm)
     incompleteForm).2
  = [Dispatch (setCardDataError "cardCvc" "This field is required");
     Dispatch (setCardDataError "cardExpiry" "This field is required")].
Proof. reflexivity. Qed.

(** * Further properties of the pay button *)

Section ValidatorExtras.
Context {State P : Type} (store : Store State) (__ : string -> string).

(** X1.  The validator dispatches nothing exactly when a cardholder name is
    entered and no key is incomplete, whatever the error object holds; the
    store is then as it was.  A form refused for a card-data error alone is
    refused without a write. *)
Theorem validator_silent_iff (s : State) :
  let call := isCreditCardFormValid (P:=P) store "stripe" __ s in
  (call.2 = []
   <-> (exists f, getFields store s !! "cardholderName" = Some f /\ value f <> "")
       /\ getIncompleteFieldKeys store s = [])
  /\ (call.2 = [] -> call.1.2 = s).
Proof.
  cbv zeta. rewrite isCreditCardFormValid_stripe. cbn [fst snd].
  unfold afterTouch, touchWrites.
  destruct (nameMissing store s) eqn:Hname.
  - split; [split|]; try done.
    intros [Hentry _]. apply nameMissing_false in Hentry. congruence.
  - apply nameMissing_false in Hname.
    destruct (getIncompleteFieldKeys store s) as [|key keys]; cbn; split; try done.
    split; [done|]. by intros [_ ?].
Qed.

Lemma requiredErrors_keep_incomplete (keys : list string) (s : State) :
  RecordsWrites store ->
  getIncompleteFieldKeys store (fold_left (reducer store) (requiredErrors __ keys) s)
  = getIncompleteFieldKeys store s.
Proof.
  intros Hwrites. revert s. induction keys as [|key keys IH]; intros s; [done|].
  cbn. rewrite IH. apply (card_error_incomplete Hwrites).
Qed.

(** X2.  In a store that keeps its parts apart and records what is written,
    a second call right after the first returns the same boolean and
    dispatches the same actions again: the touch and the error writes of a
    refused form are repeated on every call. *)
Theorem revalidation_repeats (s : State) :
  SeparateSlices store ->
  RecordsWrites store ->
  let first := isCreditCardFormValid (P:=P) store "stripe" __ s in
  let second := isCreditCardFormValid (P:=P) store "stripe" __ first.1.2 in
  second.1.1 = first.1.1 /\ second.2 = first.2.
Proof.
  intros Hslices Hwrites. cbv zeta.
  rewrite (isCreditCardFormValid_stripe store __ s). cbn [fst snd].
  set (keys := getIncompleteFieldKeys store (afterTouch store s)).
  set (s1 := fold_left (reducer store) (requiredErrors __ keys) (afterTouch store s)).
  rewrite (isCreditCardFormValid_stripe store __ s1). cbn [fst snd].
  assert (Hname : nameMissing store s1 = nameMissing store s).
  { unfold nameMissing, s1. rewrite (requiredErrors_keep_fields store) by done.
    unfold afterTouch. fold (nameMissing store s).
    destruct (nameMissing store s) eqn:Hmissing; [|exact Hmissing].
    destruct (field_value_written Hwrites s "cardholderName" "") as (f & Hentry & Hvalue).
    apply nameMissing_true. right. by exists f. }
  assert (Hkeys : getIncompleteFieldKeys store (afterTouch store s1) = keys).
  { transitivity (getIncompleteFieldKeys store s1).
    - unfold afterTouch. destruct (nameMissing store s1); [|done].
      apply (field_value_incomplete Hslices).
    - unfold s1. by rewrite requiredErrors_keep_incomplete. }
  rewrite Hkeys. unfold touchWrites. rewrite Hname. split; [|done].
  destruct (nameMissing store s) eqn:Hmissing.
  { by rewrite !orb_true_r. }
  destruct keys as [|key keys'] eqn:Hlist.
  - assert (Hsame : afterTouch store s1 = s).
    { unfold afterTouch. rewrite Hname. unfold s1, afterTouch.
      by rewrite Hmissing. }
    rewrite Hsame. unfold afterTouch. by rewrite Hmissing.
  - cbn [length Nat.ltb Nat.leb]. by rewrite !orb_true_r.
Qed.
End ValidatorExtras.

Section ClickExtras.
Context {State Stripe StripeConfiguration : Type}.
Context (hooks : Hooks) (disabled : bool) (store : Store State).
Context (stripe : Stripe) (stripeConfiguration : StripeConfiguration).

Abbreviation Submission' := (Payload Stripe StripeConfiguration).
Abbreviation render' := (CreditCardPayButton hooks disabled store stripe stripeConfiguration).

Lemma submitted_app (t1 t2 : list (Effect Submission')) :
  submitted (t1 ++ t2) = submitted t1 ++ submitted t2.
Proof. apply omap_app. Qed.

(** A click in the state [s] on the button rendered in the state
    [rendered], in closed form. *)
Lemma click_closed_form (activeButtonText : JsVal) (rendered s : State) :
  let validation :=
    isCreditCardFormValid (P:=Submission') store "stripe" (useI18n hooks) s in
  Button.onClick (render' activeButtonText rendered) s
  = match validation.1.1 with
    | Ret true =>
        (Ret tt, validation.1.2,
         validation.2
         ++ [OnEvent (mkEvent "STRIPE_TRANSACTION_BEGIN");
             OnClick "card"
               (mkPayload stripe (cardholderName_value (getFields store rendered))
                  (useLineItems hooks).1 (useLineItems hooks).2 stripeConfiguration
                  "stripe")])
    | Ret false => (Ret tt, validation.1.2, validation.2)
    | Throw e => (Throw e, validation.1.2, validation.2)
    end.
Proof.
  cbv zeta. unfold CreditCardPayButton.
  destruct (useLineItems hooks) as [items total]. cbn [Button.onClick fst snd].
  change (String.eqb "stripe" "stripe") with true. cbv iota.
  pose proof (isCreditCardFormValid_stripe (P:=Submission') store (useI18n hooks) s) as Hrun.
  rewrite (bind_Ret _ _ _ _ _ _ Hrun). rewrite Hrun. cbn [fst snd].
  destruct (negb _); unfold bind, onEvent, onClick, ret; cbn; by rewrite ?app_nil_r.
Qed.

(** X3.  A click never throws, whatever state the button was rendered in,
    and it writes to the store only through the validator: the state left
    and the actions dispatched are those of the validator's call. *)
Theorem click_writes_only_by_validation (activeButtonText : JsVal) (rendered s : State) :
  let validation :=
    isCreditCardFormValid (P:=Submission') store "stripe" (useI18n hooks) s in
  let click := Button.onClick (render' activeButtonText rendered) s in
  click.1.1 = Ret tt
  /\ click.1.2 = validation.1.2
  /\ dispatched click.2 = dispatched validation.2.
Proof.
  cbv zeta. rewrite click_closed_form. cbv zeta.
  rewrite (isCreditCardFormValid_stripe store (useI18n hooks) s). cbn [fst snd].
  destruct (negb _); cbn [fst snd]; repeat split.
  unfold dispatched. rewrite omap_app. cbn. by rewrite app_nil_r.
Qed.

(** X4.  Whatever a click on the button rendered from the current state
    submits, it submits as [card] for the partner [stripe] and under the
    cardholder name the store holds, which is never empty or missing. *)
Theorem submitted_name_is_entered (activeButtonText : JsVal) (s : State)
    (method : string) (payload : Submission') :
  (method, payload) ∈ submitted (Button.onClick (render' activeButtonText s) s).2 ->
  method = "card"
  /\ paymentPartner payload = "stripe"
  /\ exists f, getFields store s !! "cardholderName" = Some f
               /\ value f <> ""
               /\ name payload = JStr (value f).
Proof.
  rewrite click_closed_form. cbv zeta.
  rewrite (isCreditCardFormValid_stripe store (useI18n hooks) s). cbn [fst snd].
  destruct (negb _) eqn:Hvalid; cbn [snd].
  - apply negb_true_iff in Hvalid.
    apply orb_false_elim in Hvalid as [Hvalid _].
    apply orb_false_elim in Hvalid as [_ Hname].
    rewrite submitted_app, submitted_Dispatch. cbn.
    intros [= -> ->]%list_elem_of_singleton. cbn. repeat split.
    apply nameMissing_false in Hname as (f & Hentry & Hvalue).
    exists f. repeat split; [done..|].
    unfold cardholderName_value, cardholderName. by rewrite Hentry.
  - rewrite submitted_Dispatch. by intros ?%elem_of_nil.
Qed.
End ClickExtras.

(** * Properties of the payment-method page *)

Section PageExtras.
Context {Purchase Content : Type}.
Context (useStripe : PaymentMethodAdd.UseStripe).
Context (stripeMethod : option (PaymentMethodAdd.PaymentMethod Content)).
Context (currentlyAssignedPaymentMethodId : JsVal).
Context (useAsPrimaryPaymentMethod : bool) (translate : string -> string).

Abbreviation thePage :=
  (PaymentMethodAdd.PaymentMethodAdd (Purchase:=Purchase) useStripe stripeMethod
     currentlyAssignedPaymentMethodId useAsPrimaryPaymentMethod translate).

(** X5.  When a payment completes the page shows one success notice, with
    the text for a method that was added (never the one for a method that
    was set), kept for the next page for 5000 ms, and then goes to the list
    of payment methods; this holds whatever the hooks return. *)
Theorem completion_notice_then_navigation :
  PaymentMethodAdd.onPaymentComplete thePage
  = [PaymentMethodAdd.reduxDispatch
       (PaymentMethodAdd.successNotice
          (JStr (translate "Your payment method has been added successfully."))
          (Some (PaymentMethodAdd.mkOptions (Some true) (Some 5000%Z))));
     PaymentMethodAdd.page "/partner-portal/payment-method/"].
Proof. reflexivity. Qed.

(** X6.  The page shows the loading placeholder exactly when there is no
    stripe method yet, and the method's form only when there is one, so
    never both; it never shows the notice about the current payment method,
    and it always shows the check box, ticked as the state says, with the
    processor given the same state and no purchase. *)
Theorem page_slots :
  (PaymentMethodAdd.loadingShown thePage = true <-> stripeMethod = None)
  /\ PaymentMethodAdd.contentShown thePage
     = (method ← stripeMethod; PaymentMethodAdd.activeContent method)
  /\ (PaymentMethodAdd.loadingShown thePage = true
      -> PaymentMethodAdd.contentShown thePage = None)
  /\ PaymentMethodAdd.noticeShown thePage = None
  /\ PaymentMethodAdd.checkbox thePage
     = Some (PaymentMethodAdd.mkCheckbox useAsPrimaryPaymentMethod
               (translate "Set as primary payment method")
               (negb useAsPrimaryPaymentMethod))
  /\ PaymentMethodAdd.cardProcessor thePage
     = PaymentMethodAdd.mkProcessorOptions None useAsPrimaryPaymentMethod.
Proof.
  unfold PaymentMethodAdd.PaymentMethodAdd.
  destruct stripeMethod as [method|]; cbn; repeat split; try done.
  by destruct (negb _).
Qed.
End PageExtras.



(** * Properties of the upsell nudge *)

Section NudgeExtras.
Context {State Site : Type} (imports : DomainToPlanNudge.Imports State Site).

Abbreviation loaded this :=
  (DomainToPlanNudge.hasLoadedFromServer (DomainToPlanNudge.sitePlans this)).

(** [isSiteEligible()] is the first falsy one of its three operands, or
    the last. *)
Lemma isSiteEligible_cases (this : DomainToPlanNudge.props) :
  DomainToPlanNudge.isSiteEligible this
  = (if negb (truthy (loaded this)) then loaded this
     else if negb (truthy (DomainToPlanNudge.rawPrice this))
          then DomainToPlanNudge.rawPrice this
     else DomainToPlanNudge.isEligible this).
Proof.
  unfold DomainToPlanNudge.isSiteEligible, js_and.
  destruct (truthy (loaded this)) eqn:Hloaded; cbn [negb].
  - by destruct (truthy (DomainToPlanNudge.rawPrice this)) eqn:Hprice; cbn [negb];
      rewrite ?Hprice.
  - by rewrite ?Hloaded.
Qed.

Lemma isSiteEligible_child (this : DomainToPlanNudge.props) :
  DomainToPlanNudge.nudge (DomainToPlanNudge.render imports this)
  = (if truthy (DomainToPlanNudge.isSiteEligible this)
     then DomainToPlanNudge.Nudge (DomainToPlanNudge.renderDomainToPlanNudge imports this)
     else DomainToPlanNudge.Value (DomainToPlanNudge.isSiteEligible this)).
Proof. reflexivity. Qed.

(** X8.  The child after the plans query is the nudge exactly when the
    plans have loaded, the raw price is truthy and the site is eligible;
    otherwise it is the first of these three values that is falsy, as it
    is. *)
Theorem nudge_child_cases (this : DomainToPlanNudge.props) :
  DomainToPlanNudge.nudge (DomainToPlanNudge.render imports this)
  = (if negb (truthy (loaded this)) then DomainToPlanNudge.Value (loaded this)
     else if negb (truthy (DomainToPlanNudge.rawPrice this))
          then DomainToPlanNudge.Value (DomainToPlanNudge.rawPrice this)
     else if negb (truthy (DomainToPlanNudge.isEligible this))
          then DomainToPlanNudge.Value (DomainToPlanNudge.isEligible this)
     else DomainToPlanNudge.Nudge (DomainToPlanNudge.renderDomainToPlanNudge imports this))
  /\ ((exists element,
         DomainToPlanNudge.nudge (DomainToPlanNudge.render imports this)
         = DomainToPlanNudge.Nudge element)
      <-> truthy (loaded this) = true
          /\ truthy (DomainToPlanNudge.rawPrice this) = true
          /\ truthy (DomainToPlanNudge.isEligible this) = true).
Proof.
  rewrite isSiteEligible_child, isSiteEligible_cases.
  destruct (truthy (loaded this)) eqn:Hloaded; cbn [negb].
  - destruct (truthy (DomainToPlanNudge.rawPrice this)) eqn:Hprice; cbn [negb].
    + destruct (truthy (DomainToPlanNudge.isEligible this)) eqn:Heligible; cbn [negb].
      * split; [done|]. split; [done|]. intros _. by eexists.
      * rewrite ?Heligible. split; [done|]. split; [by intros [? ?]|]. by intros (_ & _ & ?).
    + rewrite ?Hprice. split; [done|]. split; [by intros [? ?]|]. by intros (_ & ? & _).
  - rewrite ?Hloaded. split; [done|]. split; [by intros [? ?]|]. by intros (? & _).
Qed.

(** X9.  When the plans have loaded and the raw price is the number 0 (or
    [NaN]), the child is that number whether or not the site is eligible: a
    value React puts in the page as text, where [false] or [null] would
    leave nothing. *)
Theorem zero_price_is_a_text_child (this : DomainToPlanNudge.props) :
  truthy (loaded this) = true ->
  DomainToPlanNudge.rawPrice this = JNum 0
  \/ DomainToPlanNudge.rawPrice this = JNaN ->
  DomainToPlanNudge.nudge (DomainToPlanNudge.render imports this)
  = DomainToPlanNudge.Value (DomainToPlanNudge.rawPrice this)
  /\ reactIgnores (DomainToPlanNudge.rawPrice this) = false.
Proof.
  intros Hloaded Hprice.
  rewrite isSiteEligible_child, isSiteEligible_cases, Hloaded. cbn [negb].
  by destruct Hprice as [-> | ->].
Qed.

(** X10.  The nudge shows a pair of prices exactly when the discounted price
    is truthy, and the amount in its call to action is then the discounted
    price, the second of the pair; with a discounted price of 0 or none the
    nudge shows no pair and the call to action names the raw price. *)
Theorem call_to_action_names_the_last_price (this : DomainToPlanNudge.props) :
  let element := DomainToPlanNudge.renderDomainToPlanNudge imports this in
  let text amount :=
    DomainToPlanNudge.translate this "Upgrade for %s"
      [DomainToPlanNudge.formatCurrency imports amount
         (DomainToPlanNudge.userCurrency this)] in
  match DomainToPlanNudge.price element with
  | Some (full, reduced) =>
      full = DomainToPlanNudge.rawPrice this
      /\ reduced = DomainToPlanNudge.discountedRawPrice this
      /\ truthy reduced = true
      /\ DomainToPlanNudge.callToAction element = text reduced
  | None =>
      truthy (DomainToPlanNudge.discountedRawPrice this) = false
      /\ DomainToPlanNudge.callToAction element = text (DomainToPlanNudge.rawPrice this)
  end.
Proof.
  cbv zeta. unfold DomainToPlanNudge.renderDomainToPlanNudge, js_or.
  cbn [DomainToPlanNudge.price DomainToPlanNudge.callToAction].
  by destruct (truthy (DomainToPlanNudge.discountedRawPrice this)) eqn:Hreduced.
Qed.

(** X11.  The connected component works for one site throughout: the own
    [siteId] when it is truthy, else the selected site.  The plans are
    queried for that site, and the nudge is shown exactly when that site's
    plans have loaded, its raw price for the personal plan is truthy and it
    is eligible; the link of the nudge is then the checkout of that site. *)
Theorem connected_works_for_one_site (translate : string -> list JsVal -> string)
    (state : State) (props_siteId : JsVal) :
  let site :=
    if truthy props_siteId then props_siteId
    else DomainToPlanNudge.getSelectedSiteId imports state in
  let div := DomainToPlanNudge.connected imports translate state props_siteId in
  DomainToPlanNudge.QuerySitePlans_siteId div = site
  /\ match DomainToPlanNudge.nudge div with
     | DomainToPlanNudge.Nudge element =>
         truthy (DomainToPlanNudge.hasLoadedFromServer
                   (DomainToPlanNudge.getPlansBySiteId imports state site)) = true
         /\ truthy (DomainToPlanNudge.getSitePlanRawPrice imports state site
                      (DomainToPlanNudge.PLAN_PERSONAL imports)) = true
         /\ truthy (DomainToPlanNudge.isEligibleForDomainToPaidPlanUpsell imports state site)
            = true
         /\ DomainToPlanNudge.href element
            = "/checkout/" +:+ js_toString site +:+ "/personal"
     | DomainToPlanNudge.Value v =>
         truthy v = false
         /\ (truthy (DomainToPlanNudge.hasLoadedFromServer
                       (DomainToPlanNudge.getPlansBySiteId imports state site))
             && truthy (DomainToPlanNudge.getSitePlanRawPrice imports state site
                          (DomainToPlanNudge.PLAN_PERSONAL imports))
             && truthy (DomainToPlanNudge.isEligibleForDomainToPaidPlanUpsell imports
                          state site)) = false
     end.
Proof.
  cbv zeta. unfold DomainToPlanNudge.connected. split; [reflexivity|].
  rewrite isSiteEligible_child, isSiteEligible_cases.
  unfold DomainToPlanNudge.mapStateToProps, js_or.
  cbn [DomainToPlanNudge.sitePlans DomainToPlanNudge.rawPrice DomainToPlanNudge.isEligible
       DomainToPlanNudge.mapped_sitePlans DomainToPlanNudge.mapped_rawPrice
       DomainToPlanNudge.mapped_isEligible DomainToPlanNudge.mapped_siteId].
  set (site := if truthy props_siteId then props_siteId
               else DomainToPlanNudge.getSelectedSiteId imports state).
  destruct (truthy (DomainToPlanNudge.hasLoadedFromServer _)) eqn:Hloaded; cbn [negb andb].
  - destruct (truthy (DomainToPlanNudge.getSitePlanRawPrice _ _ _ _)) eqn:Hprice;
      cbn [negb andb].
    + destruct (truthy (DomainToPlanNudge.isEligibleForDomainToPaidPlanUpsell _ _ _))
        eqn:Heligible; [done|].
      by rewrite ?Heligible.
    + by rewrite ?Hprice.
  - by rewrite ?Hloaded.
Qed.
End NudgeExtras.

(** ** The further properties at work *)

Lemma cardStore_records : RecordsWrites cardStore.
Proof.
  split; [|done].
  intros s key val. cbn.
  destruct (fields s !! key) as [f|]; eexists; by rewrite lookup_insert_eq.
Qed.

Lemma revalidation_repeats_witness :
  (isCreditCardFormValid (P:=unit) cardStore "stripe" noTranslation
     (isCreditCardFormValid (P:=unit) cardStore "stripe" noTranslation incompleteForm).1.2).2
  = [Dispatch (setCardDataError "cardCvc" "This field is required");
     Dispatch (setCardDataError "cardExpiry" "This field is required")].
Proof.
  exact (proj2 (revalidation_repeats (P:=unit) cardStore noTranslation incompleteForm
                  cardStore_slices cardStore_records)).
Defined.

Lemma submitted_name_is_entered_witness :
  exists f, getFields cardStore filledForm !! "cardholderName" = Some f
            /\ value f <> ""
            /\ JStr "Ada Lovelace" = JStr (value f).
Proof.
  assert (Hin : ("card",
                 mkPayload tt (JStr "Ada Lovelace") (useLineItems readyHooks).1
                   (useLineItems readyHooks).2 tt "stripe")
                ∈ submitted
                    (Button.onClick
                       (CreditCardPayButton readyHooks false cardStore tt tt JUndefined
                          filledForm)
                       filledForm).2).
  { vm_compute. apply list_elem_of_here. }
  exact (proj2 (proj2 (submitted_name_is_entered readyHooks false cardStore tt tt
                         JUndefined filledForm _ _ Hin))).
Defined.

Lemma zero_price_is_a_text_child_witness :
  DomainToPlanNudge.nudge (DomainToPlanNudge.render sampleImports freePlanProps)
  = DomainToPlanNudge.Value (JNum 0)
  /\ reactIgnores (JNum 0) = false.
Proof.
  exact (zero_price_is_a_text_child sampleImports freePlanProps eq_refl (or_introl eq_refl)).
Defined.

Example reducedPlanSite_nudge :
  match DomainToPlanNudge.nudge
          (DomainToPlanNudge.connected sampleImports plainTranslate reducedPlanSite JUndefined)
  with
  | DomainToPlanNudge.Nudge element =>
      DomainToPlanNudge.href element = "/checkout/77/personal"
      /\ DomainToPlanNudge.price element = Some (JNum 48, JNum 36)
  | DomainToPlanNudge.Value _ => False
  end.
Proof. vm_compute. done. Qed.
